(** * The application registry of [applications.py]

    A shallow embedding of the class [FastAPI] of [src/applications.py]:
    its instance attributes as a record, its methods as computations in a
    small state monad over the instance and a log of the calls made to the
    external schema generator [fastapi.openapi.utils.get_openapi].

    Python objects are modelled by their values: a list is a [list], a
    [Dict[str, Any]] is a [gmap string pyval], [None] in an [Optional] is
    [None].  In-place updates ([append], [extend]) become assignments of
    the updated value.  The schema generator is a function of its keyword
    arguments; the documents it returns share nothing with the lists of the
    instance, so that "the same object" reads as "the same document".

    One method can raise: [add_middleware] calls [append] on the attribute
    [middleware], declared [Sequence], which is a tuple when the caller
    passed a non-empty one.  That attribute keeps the kind of its value
    and [add_middleware] returns an [outcome]. *)

From stdpp Require Import base option list strings gmap.

Set Default Proof Using "Type".
Open Scope string_scope.
Open Scope list_scope.

(** ** Python values *)

(** The values a [Dict[str, Any]] of the source can hold. *)
#[local] Unset Elimination Schemes.
Inductive pyval : Type :=
  | PNone
  | PBool (b : bool)
  | PInt (z : Z)
  | PStr (s : string)
  | PList (l : list pyval)
  | PDict (d : list (string * pyval)).

#[local] Set Elimination Schemes.

(** [Dict[str, Any]]. *)
Abbreviation pydict := (gmap string pyval).

(** Python's truth-value test ([bool(x)]), as [if x:], [not x] and [x or y]
    use it: an empty string, an empty list, an empty dict and [None] are
    false. *)
Class Truthy (A : Type) := truthy : A → bool.
Global Hint Mode Truthy ! : typeclass_instances.

Global Instance string_truthy : Truthy string :=
  fun s => match s with EmptyString => false | String _ _ => true end.
Global Instance list_truthy {A} : Truthy (list A) :=
  fun l => match l with [] => false | _ :: _ => true end.
Global Instance pydict_truthy : Truthy pydict :=
  fun d => negb (Nat.eqb (size d) 0).
Global Instance optional_truthy {A} `{Truthy A} : Truthy (option A) :=
  fun o => match o with None => false | Some x => truthy x end.

(** A [Sequence] whose kind matters: a list has [append], a tuple has
    not. *)
Inductive sequence (A : Type) : Type :=
  | a_list (l : list A)
  | a_tuple (l : list A).
Arguments a_list {A} l.
Arguments a_tuple {A} l.

Definition items {A} (s : sequence A) : list A :=
  match s with a_list l | a_tuple l => l end.

Global Instance sequence_truthy {A} : Truthy (sequence A) :=
  fun s => truthy (items s).

(** [s.append(x)]: in place on a list; a tuple has no such attribute. *)
Inductive exception : Type := AttributeError.

Inductive outcome (A : Type) : Type :=
  | Returned (x : A)
  | Raised (e : exception).
Arguments Returned {A} x.
Arguments Raised {A} e.

Definition append {A} (s : sequence A) (x : A) : outcome (sequence A) :=
  match s with
  | a_list l => Returned (a_list (l ++ [x]))
  | a_tuple _ => Raised AttributeError
  end.

(** [x or y] where [x : Optional[T]] and [y : T]. *)
Definition or_else {A} `{Truthy A} (x : option A) (y : A) : A :=
  match x with
  | Some v => if truthy v then v else y
  | None => y
  end.

(** [x or y] where both sides are [Optional[T]]. *)
Definition py_or {A} `{Truthy A} (x y : option A) : option A :=
  if truthy x then x else y.

(** ** The external framework *)

(** What the module imports from [fastapi] and only stores or passes on:
    the opaque classes, the accessor [router.routes], the constructor
    [Middleware(cls, **options)] and the schema generator
    [fastapi.openapi.utils.get_openapi], a function of its six keyword
    arguments. *)
Class Framework := {
  BaseRoute : Type;
  APIRouter : Type;
  router_routes : APIRouter → list BaseRoute;
  Response : Type;
  JSONResponse : Response;
  Depends : Type;
  PyType : Type;
  Middleware : Type;
  new_Middleware : PyType → pydict → Middleware;
  ExcType : Type;
  ExcType_eq_dec :: EqDecision ExcType;
  ExcType_countable :: Countable ExcType;
  Callable : Type;
  utils_get_openapi :
    string → string → string → list BaseRoute →
    option (list pydict) → option (list pydict) → pydict;
}.

Section Application.
Context `{F : Framework}.

(** The keyword arguments of one call of the schema generator. *)
Record GenArgs := {
  g_title : string;
  g_version : string;
  g_description : string;
  g_routes : list BaseRoute;
  g_tags : option (list pydict);
  g_servers : option (list pydict);
}.

Definition generate (a : GenArgs) : pydict :=
  utils_get_openapi (g_title a) (g_version a) (g_description a)
    (g_routes a) (g_tags a) (g_servers a).

(** ** Instance attributes *)

Record FastAPI := {
  debug : bool;
  routes : list BaseRoute;
  title : string;
  description : string;
  version : string;
  openapi_url : option string;
  openapi_tags : option (list pydict);
  servers : option (list pydict);
  docs_url : option string;
  redoc_url : option string;
  swagger_ui_oauth2_redirect_url : option string;
  swagger_ui_init_oauth : option pydict;
  middleware : sequence Middleware;
  exception_handlers : gmap (Z + ExcType) Callable;
  on_startup : list Callable;
  on_shutdown : list Callable;
  default_response_class : Response;
  dependencies : list Depends;
  openapi_prefix : string;
  openapi_schema : option pydict;
  _openapi_schema_cache : option pydict;
}.

(** Attribute assignment, one function per attribute the methods write. *)
Definition set_routes (v : list BaseRoute) (a : FastAPI) : FastAPI :=
  {| debug := debug a; routes := v; title := title a;
     description := description a; version := version a;
     openapi_url := openapi_url a; openapi_tags := openapi_tags a;
     servers := servers a; docs_url := docs_url a; redoc_url := redoc_url a;
     swagger_ui_oauth2_redirect_url := swagger_ui_oauth2_redirect_url a;
     swagger_ui_init_oauth := swagger_ui_init_oauth a;
     middleware := middleware a; exception_handlers := exception_handlers a;
     on_startup := on_startup a; on_shutdown := on_shutdown a;
     default_response_class := default_response_class a;
     dependencies := dependencies a; openapi_prefix := openapi_prefix a;
     openapi_schema := openapi_schema a;
     _openapi_schema_cache := _openapi_schema_cache a |}.

Definition set_middleware (v : sequence Middleware) (a : FastAPI)
  : FastAPI :=
  {| debug := debug a; routes := routes a; title := title a;
     description := description a; version := version a;
     openapi_url := openapi_url a; openapi_tags := openapi_tags a;
     servers := servers a; docs_url := docs_url a; redoc_url := redoc_url a;
     swagger_ui_oauth2_redirect_url := swagger_ui_oauth2_redirect_url a;
     swagger_ui_init_oauth := swagger_ui_init_oauth a;
     middleware := v; exception_handlers := exception_handlers a;
     on_startup := on_startup a; on_shutdown := on_shutdown a;
     default_response_class := default_response_class a;
     dependencies := dependencies a; openapi_prefix := openapi_prefix a;
     openapi_schema := openapi_schema a;
     _openapi_schema_cache := _openapi_schema_cache a |}.

Definition set_openapi_schema (v : option pydict) (a : FastAPI) : FastAPI :=
  {| debug := debug a; routes := routes a; title := title a;
     description := description a; version := version a;
     openapi_url := openapi_url a; openapi_tags := openapi_tags a;
     servers := servers a; docs_url := docs_url a; redoc_url := redoc_url a;
     swagger_ui_oauth2_redirect_url := swagger_ui_oauth2_redirect_url a;
     swagger_ui_init_oauth := swagger_ui_init_oauth a;
     middleware := middleware a; exception_handlers := exception_handlers a;
     on_startup := on_startup a; on_shutdown := on_shutdown a;
     default_response_class := default_response_class a;
     dependencies := dependencies a; openapi_prefix := openapi_prefix a;
     openapi_schema := v;
     _openapi_schema_cache := _openapi_schema_cache a |}.

Definition set_openapi_schema_cache (v : option pydict) (a : FastAPI)
  : FastAPI :=
  {| debug := debug a; routes := routes a; title := title a;
     description := description a; version := version a;
     openapi_url := openapi_url a; openapi_tags := openapi_tags a;
     servers := servers a; docs_url := docs_url a; redoc_url := redoc_url a;
     swagger_ui_oauth2_redirect_url := swagger_ui_oauth2_redirect_url a;
     swagger_ui_init_oauth := swagger_ui_init_oauth a;
     middleware := middleware a; exception_handlers := exception_handlers a;
     on_startup := on_startup a; on_shutdown := on_shutdown a;
     default_response_class := default_response_class a;
     dependencies := dependencies a; openapi_prefix := openapi_prefix a;
     openapi_schema := openapi_schema a;
     _openapi_schema_cache := v |}.

(** ** The method monad *)

(** What a method call can read and change: the instance it is called on
    and, as a record of the interaction with the outside, the argument
    tuples of the calls made to the schema generator, oldest first. *)
Record World := {
  self : FastAPI;
  generated : list GenArgs;
}.

Definition M (A : Type) : Type := World → A * World.

#[export] Instance M_ret : MRet M := fun A x w => (x, w).
#[export] Instance M_bind : MBind M :=
  fun A B k c w => let (x, w') := c w in k x w'.

(** [self.attr] *)
Definition attr {A} (f : FastAPI → A) : M A := fun w => (f (self w), w).

(** [self.attr = v], through one of the setters above. *)
Definition assign (upd : FastAPI → FastAPI) : M unit :=
  fun w => (tt, {| self := upd (self w); generated := generated w |}).

(** The call [get_openapi(title=.., version=.., ...)] of the imported
    function. *)
Definition call_get_openapi (a : GenArgs) : M pydict :=
  fun w => (generate a,
            {| self := self w; generated := generated w ++ [a] |}).

(** ** Methods *)

(** The keyword arguments of [__init__], each with its declared type. *)
Record InitKwargs := {
  kw_debug : bool;
  kw_routes : option (list BaseRoute);
  kw_title : string;
  kw_description : string;
  kw_version : string;
  kw_openapi_url : option string;
  kw_openapi_tags : option (list pydict);
  kw_servers : option (list pydict);
  kw_docs_url : option string;
  kw_redoc_url : option string;
  kw_swagger_ui_oauth2_redirect_url : option string;
  kw_swagger_ui_init_oauth : option pydict;
  kw_middleware : option (sequence Middleware);
  kw_exception_handlers : option (gmap (Z + ExcType) Callable);
  kw_on_startup : option (list Callable);
  kw_on_shutdown : option (list Callable);
  kw_default_response_class : Response;
  kw_dependencies : option (list Depends);
  kw_openapi_prefix : string;
}.

(** The declared defaults: what [FastAPI()] passes. *)
Definition no_arguments : InitKwargs :=
  {| kw_debug := false;
     kw_routes := None;
     kw_title := "FastAPI";
     kw_description := "";
     kw_version := "0.1.0";
     kw_openapi_url := Some "/openapi.json";
     kw_openapi_tags := None;
     kw_servers := None;
     kw_docs_url := Some "/docs";
     kw_redoc_url := Some "/redoc";
     kw_swagger_ui_oauth2_redirect_url := Some "/docs/oauth2-redirect";
     kw_swagger_ui_init_oauth := None;
     kw_middleware := None;
     kw_exception_handlers := None;
     kw_on_startup := None;
     kw_on_shutdown := None;
     kw_default_response_class := JSONResponse;
     kw_dependencies := None;
     kw_openapi_prefix := "" |}.

Global Instance handlers_truthy : Truthy (gmap (Z + ExcType) Callable) :=
  fun d => negb (Nat.eqb (size d) 0).

Definition __init__ (kw : InitKwargs) : FastAPI :=
  {| debug := kw_debug kw;
     routes := or_else (kw_routes kw) [];
     title := kw_title kw;
     description := kw_description kw;
     version := kw_version kw;
     openapi_url := kw_openapi_url kw;
     openapi_tags := kw_openapi_tags kw;
     servers := kw_servers kw;
     docs_url := kw_docs_url kw;
     redoc_url := kw_redoc_url kw;
     swagger_ui_oauth2_redirect_url := kw_swagger_ui_oauth2_redirect_url kw;
     swagger_ui_init_oauth := kw_swagger_ui_init_oauth kw;
     middleware := or_else (kw_middleware kw) (a_list []);
     exception_handlers := or_else (kw_exception_handlers kw) ∅;
     on_startup := or_else (kw_on_startup kw) [];
     on_shutdown := or_else (kw_on_shutdown kw) [];
     default_response_class := kw_default_response_class kw;
     dependencies := or_else (kw_dependencies kw) [];
     openapi_prefix := kw_openapi_prefix kw;
     openapi_schema := None;
     _openapi_schema_cache := None |}.

(** The world right after the constructor call: nothing generated yet. *)
Definition construct (kw : InitKwargs) : World :=
  {| self := __init__ kw; generated := [] |}.

(** [self.middleware.append(Middleware(middleware_class, ...))]: the
    attribute lookup [append] comes first, and fails on a tuple before
    anything is changed. *)
Definition add_middleware (middleware_class : PyType) (options : pydict)
  : M (outcome unit) :=
  s ← attr middleware;
  match append s (new_Middleware middleware_class options) with
  | Returned s' => assign (set_middleware s');; mret (Returned tt)
  | Raised e => mret (Raised e)
  end.

Definition add_route (path : string) (route : BaseRoute) : M unit :=
  l ← attr routes;
  assign (set_routes (l ++ [route])).

(** The keyword-only arguments of [include_router]. *)
Record IncludeKwargs := {
  inc_prefix : string;
  inc_tags : option (list string);
  inc_dependencies : option (list Depends);
  inc_responses : option (gmap (Z + string) pydict);
  inc_default_response_class : option Response;
  inc_callbacks : option (list BaseRoute);
  inc_include_in_schema : bool;
}.

Definition include_defaults : IncludeKwargs :=
  {| inc_prefix := ""; inc_tags := None; inc_dependencies := None;
     inc_responses := None; inc_default_response_class := None;
     inc_callbacks := None; inc_include_in_schema := true |}.

Definition include_router (router : APIRouter) (kw : IncludeKwargs)
  : M unit :=
  l ← attr routes;
  assign (set_routes (l ++ router_routes router)).

(** The keyword-only arguments of [get_openapi], all [None] by default. *)
Record Overrides := {
  ov_title : option string;
  ov_version : option string;
  ov_description : option string;
  ov_routes : option (list BaseRoute);
  ov_tags : option (list pydict);
  ov_servers : option (list pydict);
}.

Definition no_overrides : Overrides :=
  {| ov_title := None; ov_version := None; ov_description := None;
     ov_routes := None; ov_tags := None; ov_servers := None |}.

(** [title=t] and nothing else. *)
Definition title_only (t : string) : Overrides :=
  {| ov_title := Some t; ov_version := None; ov_description := None;
     ov_routes := None; ov_tags := None; ov_servers := None |}.

(** The arguments [get_openapi] passes on: [title or self.title], ... *)
Definition resolve (kw : Overrides) (a : FastAPI) : GenArgs :=
  {| g_title := or_else (ov_title kw) (title a);
     g_version := or_else (ov_version kw) (version a);
     g_description := or_else (ov_description kw) (description a);
     g_routes := or_else (ov_routes kw) (routes a);
     g_tags := py_or (ov_tags kw) (openapi_tags a);
     g_servers := py_or (ov_servers kw) (servers a) |}.

Definition get_openapi (kw : Overrides) : M (option pydict) :=
  cache ← attr _openapi_schema_cache;
  if truthy cache then mret cache
  else
    a ← attr (resolve kw);
    d ← call_get_openapi a;
    assign (set_openapi_schema (Some d));;
    schema ← attr openapi_schema;
    assign (set_openapi_schema_cache schema);;
    attr openapi_schema.

Definition openapi : M (option pydict) :=
  schema ← attr openapi_schema;
  (if negb (truthy schema) then
     d ← get_openapi no_overrides;
     assign (set_openapi_schema d)
   else mret tt);;
  attr openapi_schema.

Definition setup : M unit := mret tt.

Definition mount {App : Type} (path : string) (app : App)
  (name : option string) : M unit := mret tt.

Definition host (host : string) (port : Z) (kwargs : pydict) : M unit :=
  mret tt.

(** ** Call sequences *)

(** One call of a public method on the application object. *)
Inductive call : Type :=
  | Add_middleware (middleware_class : PyType) (options : pydict)
  | Add_route (path : string) (route : BaseRoute)
  | Include_router (router : APIRouter) (kw : IncludeKwargs)
  | Get_openapi (kw : Overrides)
  | Openapi
  | Setup
  | Mount (path : string) (app : pyval) (name : option string)
  | Host (h : string) (port : Z) (kwargs : pydict).

(** The world after the call, its return value dropped.  A call that
    raises leaves the world as it was, and the caller goes on from there. *)
Definition step (c : call) (w : World) : World :=
  match c with
  | Add_middleware cls options => (add_middleware cls options w).2
  | Add_route path route => (add_route path route w).2
  | Include_router router kw => (include_router router kw w).2
  | Get_openapi kw => (get_openapi kw w).2
  | Openapi => (openapi w).2
  | Setup => (setup w).2
  | Mount path app name => (mount path app name w).2
  | Host h port kwargs => (host h port kwargs w).2
  end.

Fixpoint run (cs : list call) (w : World) : World :=
  match cs with
  | [] => w
  | c :: cs' => run cs' (step c w)
  end.

(** The schema document the call returns: one for the two schema requests,
    [None] for the calls that return [None] or raise. *)
Definition result (c : call) (w : World) : option pydict :=
  match c with
  | Get_openapi kw => (get_openapi kw w).1
  | Openapi => (openapi w).1
  | _ => None
  end.

(** The values a sequence of calls returns, in call order. *)
Fixpoint returns (cs : list call) (w : World) : list (option pydict) :=
  match cs with
  | [] => []
  | c :: cs' => result c w :: returns cs' (step c w)
  end.

(** *** The registry with one cache field

    The design the specification proposes in place of the two slots: the
    same methods, with [openapi_schema] as the only cache field;
    [_openapi_schema_cache] is neither read nor written. *)
Definition get_openapi_single_slot (kw : Overrides) : M (option pydict) :=
  schema ← attr openapi_schema;
  if truthy schema then mret schema
  else
    a ← attr (resolve kw);
    d ← call_get_openapi a;
    assign (set_openapi_schema (Some d));;
    attr openapi_schema.

Definition openapi_single_slot : M (option pydict) :=
  schema ← attr openapi_schema;
  (if negb (truthy schema) then
     d ← get_openapi_single_slot no_overrides;
     assign (set_openapi_schema d)
   else mret tt);;
  attr openapi_schema.

Definition step_single_slot (c : call) (w : World) : World :=
  match c with
  | Get_openapi kw => (get_openapi_single_slot kw w).2
  | Openapi => (openapi_single_slot w).2
  | _ => step c w
  end.

Definition result_single_slot (c : call) (w : World) : option pydict :=
  match c with
  | Get_openapi kw => (get_openapi_single_slot kw w).1
  | Openapi => (openapi_single_slot w).1
  | _ => None
  end.

Fixpoint run_single_slot (cs : list call) (w : World) : World :=
  match cs with
  | [] => w
  | c :: cs' => run_single_slot cs' (step_single_slot c w)
  end.

Fixpoint returns_single_slot (cs : list call) (w : World)
  : list (option pydict) :=
  match cs with
  | [] => []
  | c :: cs' =>
      result_single_slot c w :: returns_single_slot cs' (step_single_slot c w)
  end.

(** The world with the second slot cleared. *)
Definition without_cache (w : World) : World :=
  {| self := set_openapi_schema_cache None (self w);
     generated := generated w |}.

(** The calls that ask for the schema. *)
Definition is_schema_request (c : call) : bool :=
  match c with
  | Get_openapi _ | Openapi => true
  | _ => false
  end.

(** The calls of the three methods whose body is [pass]. *)
Definition is_stub (c : call) : bool :=
  match c with
  | Setup | Mount _ _ _ | Host _ _ _ => true
  | _ => false
  end.

(** [add_route(path_1, route_1); ...; add_route(path_n, route_n)] *)
Fixpoint add_routes (calls : list (string * BaseRoute)) : M unit :=
  match calls with
  | [] => mret tt
  | (path, route) :: rest => add_route path route;; add_routes rest
  end.

(** An override that is supplied but false counts as not supplied. *)
Definition drop_falsy {A} `{Truthy A} (x : option A) : option A :=
  if truthy x then x else None.

Definition supplied_truthy_only (kw : Overrides) : Overrides :=
  {| ov_title := drop_falsy (ov_title kw);
     ov_version := drop_falsy (ov_version kw);
     ov_description := drop_falsy (ov_description kw);
     ov_routes := drop_falsy (ov_routes kw);
     ov_tags := drop_falsy (ov_tags kw);
     ov_servers := drop_falsy (ov_servers kw) |}.

(** Every override supplied, each with a false value. *)
Definition falsy_overrides : Overrides :=
  {| ov_title := Some ""; ov_version := Some ""; ov_description := Some "";
     ov_routes := Some []; ov_tags := Some []; ov_servers := Some [] |}.

(** The registry's own stored values, as generator arguments. *)
Definition stored_values (a : FastAPI) : GenArgs :=
  {| g_title := title a; g_version := version a;
     g_description := description a; g_routes := routes a;
     g_tags := openapi_tags a; g_servers := servers a |}.

(** Every attribute but [routes]. *)
Definition but_routes (a : FastAPI) : FastAPI := set_routes [] a.

(** Document [d] has been computed and cached: the state the miss branch
    of [get_openapi] leaves, with [d] in both slots. *)
Definition cached (d : pydict) (a : FastAPI) : Prop :=
  openapi_schema a = Some d ∧ _openapi_schema_cache a = Some d.

(** Neither slot passes the truth-value test of [get_openapi] and
    [openapi]. *)
Definition nothing_cached (a : FastAPI) : Prop :=
  truthy (openapi_schema a) = false
  ∧ truthy (_openapi_schema_cache a) = false.

(** The world [get_openapi] leaves when it does call the generator. *)
Definition generated_world (kw : Overrides) (w : World) : World :=
  let d := generate (resolve kw (self w)) in
  {| self := set_openapi_schema_cache (Some d)
               (set_openapi_schema (Some d) (self w));
     generated := generated w ++ [resolve kw (self w)] |}.

(** *** What a call sequence registers *)

(** The routes a call appends to [routes]. *)
Definition routes_added (c : call) : list BaseRoute :=
  match c with
  | Add_route _ route => [route]
  | Include_router router _ => router_routes router
  | _ => []
  end.

(** The descriptors a call hands to [middleware.append]. *)
Definition middleware_added (c : call) : list Middleware :=
  match c with
  | Add_middleware middleware_class options =>
      [new_Middleware middleware_class options]
  | _ => []
  end.

Definition is_add_middleware (c : call) : bool :=
  match c with
  | Add_middleware _ _ => true
  | _ => false
  end.

(** A sequence after [append] was tried for each element of [l]: a list
    has grown by [l], a tuple is as it was. *)
Definition grown {A} (s : sequence A) (l : list A) : sequence A :=
  match s with
  | a_list l0 => a_list (l0 ++ l)
  | a_tuple l0 => a_tuple l0
  end.

(** Whether the call raises. *)
Definition raises (c : call) (w : World) : bool :=
  match c with
  | Add_middleware middleware_class options =>
      match (add_middleware middleware_class options w).1 with
      | Returned _ => false
      | Raised _ => true
      end
  | _ => false
  end.

(** Which calls of a sequence raise, in call order. *)
Fixpoint raised (cs : list call) (w : World) : list bool :=
  match cs with
  | [] => []
  | c :: cs' => raises c w :: raised cs' (step c w)
  end.

(** The attributes only [__init__] assigns: the instance with [routes],
    [middleware] and the two schema slots blanked. *)
Definition configuration (a : FastAPI) : FastAPI :=
  set_openapi_schema_cache None
    (set_openapi_schema None
       (set_middleware (a_list []) (set_routes [] a))).

(** The calls that do not ask for the schema. *)
Definition no_schema_request (c : call) : bool := negb (is_schema_request c).

(** [add_route] for each route of a list, under the path [path_of] gives
    it. *)
Definition each_route (path_of : BaseRoute → string) (l : list BaseRoute)
  : list (string * BaseRoute) := (λ route, (path_of route, route)) <$> l.

(** An assignment to an attribute from outside the class, as in
    [app.openapi_schema = None]. *)
Definition assigned (upd : FastAPI → FastAPI) (w : World) : World :=
  (assign upd w).2.

End Application.

(** ** Concrete frameworks *)

(** A framework whose routes are their paths, for running the methods on
    concrete inputs; the schema generator is left open. *)
Definition framework_with
  (gen : string → string → string → list string →
         option (list pydict) → option (list pydict) → pydict)
  : Framework :=
  {| BaseRoute := string;
     APIRouter := list string;
     router_routes := id;
     Response := string;
     JSONResponse := "JSONResponse";
     Depends := string;
     PyType := string;
     Middleware := string * pydict;
     new_Middleware := pair;
     ExcType := string;
     Callable := string;
     utils_get_openapi := gen |}.

(** A generator that fills the top-level keys of the schema document. *)
Definition document_generator (t v d : string) (rs : list string)
  (tags srvs : option (list pydict)) : pydict :=
  {[ "title" := PStr t; "version" := PStr v; "description" := PStr d;
     "paths" := PList (PStr <$> rs) ]}.

(** A generator that returns the empty document. *)
Definition empty_generator (t v d : string) (rs : list string)
  (tags srvs : option (list pydict)) : pydict := ∅.

(** A generator that describes the routes and nothing else: the empty
    document when there are none. *)
Definition paths_generator (t v d : string) (rs : list string)
  (tags srvs : option (list pydict)) : pydict :=
  match rs with
  | [] => ∅
  | _ :: _ => {[ "paths" := PList (PStr <$> rs) ]}
  end.

(** ** Basic facts *)

Section Properties.
Context `{F : Framework}.

Ltac unfold_M :=
  unfold add_middleware, add_route, include_router, get_openapi, openapi,
    setup, mount, host, call_get_openapi, assign, attr,
    mbind, mret, M_bind, M_ret in *.

Lemma truthy_Some {A} `{Truthy A} (v : A) : truthy (Some v) = truthy v.
Proof. reflexivity. Qed.

Lemma truthy_Some_inv {A} `{Truthy A} (o : option A) :
  truthy o = true → ∃ x, o = Some x ∧ truthy x = true.
Proof. destruct o as [x|]; [eauto | discriminate]. Qed.

Lemma truthy_lookup (d : pydict) (k : string) (v : pyval) :
  d !! k = Some v → truthy d = true.
Proof.
  intros Hk. unfold truthy, pydict_truthy.
  destruct (Nat.eqb_spec (size d) 0) as [Hz|]; [|done].
  apply map_size_empty_inv in Hz. subst d. by rewrite lookup_empty in Hk.
Qed.

(** The two branches of [get_openapi]. *)
Lemma get_openapi_hit (kw : Overrides) (w : World) :
  truthy (_openapi_schema_cache (self w)) = true →
  get_openapi kw w = (_openapi_schema_cache (self w), w).
Proof. intros Hc. unfold_M. by rewrite Hc. Qed.

Lemma get_openapi_miss (kw : Overrides) (w : World) :
  truthy (_openapi_schema_cache (self w)) = false →
  get_openapi kw w
  = (Some (generate (resolve kw (self w))), generated_world kw w).
Proof. intros Hc. unfold_M. by rewrite Hc. Qed.

(** The two outcomes of [add_middleware]. *)
Lemma add_middleware_spec (middleware_class : PyType) (options : pydict)
  (w : World) :
  add_middleware middleware_class options w
  = match middleware (self w) with
    | a_list l =>
        (Returned tt,
         {| self := set_middleware
                      (a_list (l ++ [new_Middleware middleware_class options]))
                      (self w);
            generated := generated w |})
    | a_tuple _ => (Raised AttributeError, w)
    end.
Proof. unfold_M. by destruct (middleware (self w)). Qed.

(** Either way the world after it is the world before with [middleware]
    grown, if it can grow. *)
Lemma step_add_middleware (middleware_class : PyType) (options : pydict)
  (w : World) :
  step (Add_middleware middleware_class options) w
  = {| self := set_middleware
                 (grown (middleware (self w))
                    [new_Middleware middleware_class options])
                 (self w);
       generated := generated w |}.
Proof.
  unfold step. rewrite add_middleware_spec.
  destruct w as [a g]. simpl. destruct (middleware a) eqn:Hm; simpl; [done|].
  f_equal. rewrite <- Hm. by destruct a.
Qed.

(** ** The stubs *)

(** C7: [setup], [mount] and [host] return [None] and leave the world as it
    was, whatever their arguments: every attribute of the instance is
    unchanged, the generator is not called, and no error is raised; so does
    any sequence of such calls. *)
Theorem stubs_do_nothing (w : World) {App : Type} (path : string) (app : App)
  (name : option string) (h : string) (port : Z) (kwargs : pydict)
  (cs : list call) :
  setup w = (tt, w)
  ∧ mount path app name w = (tt, w)
  ∧ host h port kwargs w = (tt, w)
  ∧ run (List.filter is_stub cs) w = w.
Proof.
  repeat split.
  induction cs as [|c cs IH]; [done|].
  destruct c; simpl; done.
Qed.

(** ** Construction *)

(** What [x or []] is: [x] when it holds elements, a new empty list when it
    is [None] or empty. *)
Lemma or_else_nil {A} (x : option (list A)) : or_else x [] = default [] x.
Proof. by destruct x as [[|]|]. Qed.

(** C6, as the code has it: [FastAPI()] has empty [routes], [middleware]
    (an empty list), [exception_handlers], [on_startup], [on_shutdown] and
    [dependencies], and [None] in both schema slots; whatever the other
    arguments, each of these six collections is empty when its argument is
    omitted, and holds the elements passed otherwise.  The
    optional collections [openapi_tags], [servers] and
    [swagger_ui_init_oauth] are stored as passed, so they stay [None] when
    omitted. *)
Theorem init_defaults (kw : InitKwargs) :
  let app := __init__ no_arguments in
  (routes app = [] ∧ middleware app = a_list []
   ∧ exception_handlers app = ∅
   ∧ on_startup app = [] ∧ on_shutdown app = [] ∧ dependencies app = []
   ∧ openapi_schema app = None ∧ _openapi_schema_cache app = None
   ∧ openapi_tags app = None ∧ servers app = None
   ∧ swagger_ui_init_oauth app = None)
  ∧ (routes (__init__ kw) = default [] (kw_routes kw)
     ∧ items (middleware (__init__ kw))
       = default [] (items <$> kw_middleware kw)
     ∧ middleware (__init__ kw)
       = (if truthy (kw_middleware kw)
          then default (a_list []) (kw_middleware kw) else a_list [])
     ∧ exception_handlers (__init__ kw)
       = default ∅ (kw_exception_handlers kw)
     ∧ on_startup (__init__ kw) = default [] (kw_on_startup kw)
     ∧ on_shutdown (__init__ kw) = default [] (kw_on_shutdown kw)
     ∧ dependencies (__init__ kw) = default [] (kw_dependencies kw)
     ∧ openapi_schema (__init__ kw) = None
     ∧ _openapi_schema_cache (__init__ kw) = None
     ∧ openapi_tags (__init__ kw) = kw_openapi_tags kw
     ∧ servers (__init__ kw) = kw_servers kw
     ∧ swagger_ui_init_oauth (__init__ kw) = kw_swagger_ui_init_oauth kw).
Proof.
  split; [by repeat split|].
  simpl. rewrite !or_else_nil. split_and!; try done.
  - by destruct (kw_middleware kw) as [[[|]|[|]]|].
  - by destruct (kw_middleware kw) as [[[|]|[|]]|].
  - destruct (kw_exception_handlers kw) as [m|]; simpl; [|done].
    unfold truthy, handlers_truthy.
    destruct (Nat.eqb_spec (size m) 0) as [Hz|]; [|done].
    by apply map_size_empty_inv in Hz.
Qed.

(** ** Registering routes *)

Lemma add_route_spec (path : string) (route : BaseRoute) (w : World) :
  add_route path route w
  = (tt, {| self := set_routes (routes (self w) ++ [route]) (self w);
            generated := generated w |}).
Proof. reflexivity. Qed.

Lemma add_routes_spec (calls : list (string * BaseRoute)) (w : World) :
  add_routes calls w
  = (tt, {| self := set_routes (routes (self w) ++ calls.*2) (self w);
            generated := generated w |}).
Proof.
  revert w. induction calls as [|[path route] calls IH]; intros w.
  - simpl. rewrite app_nil_r. by destruct w as [[] ?].
  - change (add_routes ((path, route) :: calls) w)
      with (add_routes calls (add_route path route w).2).
    rewrite IH, add_route_spec. simpl. by rewrite <- app_assoc.
Qed.

(** C3: after [add_route(path_1, route_1)], ..., [add_route(path_n,
    route_n)] the attribute [routes] is the initial list followed by
    [route_1], ..., [route_n] in call order, every other attribute and the
    generator log are as before, and replacing the paths by any others
    leaves the same world. *)
Theorem add_route_sequence (calls : list (string * BaseRoute)) (w : World)
  (other_path : string → string) :
  let w' := (add_routes calls w).2 in
  routes (self w') = routes (self w) ++ calls.*2
  ∧ but_routes (self w') = but_routes (self w)
  ∧ generated w' = generated w
  ∧ add_routes (prod_map other_path id <$> calls) w = add_routes calls w.
Proof.
  simpl. rewrite !add_routes_spec. repeat split.
  do 2 f_equal. f_equal. f_equal.
  rewrite <- list_fmap_compose. by apply list_fmap_ext; intros ? [].
Qed.

(** C2: [include_router(router, ...)] makes [routes] the prior list followed
    by [router.routes] in the router's order; every other attribute and the
    generator log are unchanged, and the keyword arguments have no effect
    at all. *)
Theorem include_router_extends (router : APIRouter) (kw kw' : IncludeKwargs)
  (w : World) :
  let w' := (include_router router kw w).2 in
  routes (self w') = routes (self w) ++ router_routes router
  ∧ but_routes (self w') = but_routes (self w)
  ∧ generated w' = generated w
  ∧ include_router router kw' w = include_router router kw w.
Proof. by repeat split. Qed.

(** ** The schema *)

(** The three paths through [openapi]. *)
Lemma openapi_present (w : World) :
  truthy (openapi_schema (self w)) = true →
  openapi w = (openapi_schema (self w), w).
Proof. intros Hs. unfold_M. rewrite Hs. cbn -[truthy]. by destruct w. Qed.

Lemma openapi_from_cache (w : World) :
  truthy (openapi_schema (self w)) = false →
  truthy (_openapi_schema_cache (self w)) = true →
  openapi w
  = (_openapi_schema_cache (self w),
     {| self := set_openapi_schema (_openapi_schema_cache (self w)) (self w);
        generated := generated w |}).
Proof.
  intros Hs Hc. unfold_M. rewrite Hs. cbn -[truthy].
  by rewrite get_openapi_hit.
Qed.

Lemma openapi_generates (w : World) :
  truthy (openapi_schema (self w)) = false →
  truthy (_openapi_schema_cache (self w)) = false →
  openapi w
  = (Some (generate (resolve no_overrides (self w))),
     generated_world no_overrides w).
Proof.
  intros Hs Hc. unfold_M. rewrite Hs. cbn -[truthy].
  by rewrite get_openapi_miss.
Qed.

(** [generate] reads neither schema slot. *)
Lemma resolve_generated_world (kw kw' : Overrides) (w : World) :
  resolve kw (self (generated_world kw' w)) = resolve kw (self w).
Proof. reflexivity. Qed.

(** C5: two calls of [openapi] in a row return the same schema document,
    and the second leaves the instance as the first left it.  When the
    document is not empty the second call returns the stored one and
    changes nothing; when it is empty the generator is called again, with
    the same arguments. *)
Theorem openapi_twice (w : World) :
  let first := openapi w in
  let second := openapi first.2 in
  second.1 = first.1 ∧ is_Some first.1 ∧ self second.2 = self first.2
  ∧ if truthy first.1 then second = (first.1, first.2)
    else generated first.2 = generated w ++ [resolve no_overrides (self w)]
         ∧ generated second.2
           = generated first.2 ++ [resolve no_overrides (self w)].
Proof.
  cbv zeta.
  destruct (truthy (openapi_schema (self w))) eqn:Hs.
  { rewrite (openapi_present w) by done. cbn [fst snd].
    rewrite (openapi_present w) by done. cbn [fst snd]. rewrite Hs.
    destruct (truthy_Some_inv _ Hs) as (d & -> & _). eauto. }
  destruct (truthy (_openapi_schema_cache (self w))) eqn:Hc.
  { rewrite (openapi_from_cache w) by done. cbn [fst snd].
    rewrite openapi_present by done. cbn [fst snd]. rewrite Hc.
    destruct (truthy_Some_inv _ Hc) as (d & -> & _). eauto. }
  rewrite (openapi_generates w) by done. cbn [fst snd].
  set (d := generate (resolve no_overrides (self w))).
  rewrite truthy_Some.
  destruct (truthy d) eqn:Hd.
  - rewrite openapi_present by done. eauto.
  - rewrite openapi_generates by done. split_and!; eauto.
Qed.

(** Every call keeps the two slots equal. *)
Lemma step_slots_agree (c : call) (w : World) :
  _openapi_schema_cache (self w) = openapi_schema (self w) →
  _openapi_schema_cache (self (step c w)) = openapi_schema (self (step c w)).
Proof.
  intros Heq. destruct c; rewrite ?step_add_middleware; simpl; try done.
  - destruct (truthy (_openapi_schema_cache (self w))) eqn:Hc.
    + by rewrite get_openapi_hit.
    + by rewrite get_openapi_miss.
  - destruct (truthy (openapi_schema (self w))) eqn:Hs.
    { by rewrite openapi_present. }
    destruct (truthy (_openapi_schema_cache (self w))) eqn:Hc.
    + by rewrite openapi_from_cache.
    + by rewrite openapi_generates.
Qed.

(** A call on the two-slot registry and the same call on the one-slot
    registry return the same value and leave the same world, the second
    slot apart. *)
Lemma single_slot_simulates (c : call) (w : World) :
  _openapi_schema_cache (self w) = openapi_schema (self w) →
  result_single_slot c (without_cache w) = result c w
  ∧ step_single_slot c (without_cache w) = without_cache (step c w).
Proof.
  intros Heq. destruct c; try done.
  - split; [done|]. unfold step_single_slot.
    by rewrite !step_add_middleware.
  - unfold result_single_slot, result, step_single_slot, step.
    unfold get_openapi_single_slot, attr, mbind, mret, M_bind, M_ret.
    cbn -[truthy].
    destruct (truthy (_openapi_schema_cache (self w))) eqn:Hc.
    + rewrite get_openapi_hit by done. rewrite <- Heq, Hc. by rewrite Heq.
    + rewrite get_openapi_miss by done. by rewrite <- Heq, Hc.
  - unfold result_single_slot, result, step_single_slot, step.
    unfold openapi_single_slot, get_openapi_single_slot, assign, attr,
      mbind, mret, M_bind, M_ret.
    cbn -[truthy].
    destruct (truthy (openapi_schema (self w))) eqn:Hs.
    + rewrite openapi_present by done. by destruct w.
    + rewrite openapi_generates by (by rewrite ?Heq). cbn -[truthy].
      by rewrite Hs.
Qed.

(** C8: after construction and after any sequence of calls of the public
    methods the two slots hold the same value, so whenever
    [_openapi_schema_cache] holds a document [openapi_schema] holds that
    document; and the registry with the single cache field returns the same
    values, calls the generator with the same arguments and ends with the
    same attributes, the second slot apart. *)
Theorem cache_slots_redundant (kw : InitKwargs) (cs : list call) :
  let w := run cs (construct kw) in
  let w1 := run_single_slot cs (construct kw) in
  _openapi_schema_cache (self w) = openapi_schema (self w)
  ∧ returns_single_slot cs (construct kw) = returns cs (construct kw)
  ∧ generated w1 = generated w
  ∧ w1 = without_cache w.
Proof.
  cbv zeta.
  assert (Hsim : ∀ w, _openapi_schema_cache (self w) = openapi_schema (self w) →
    _openapi_schema_cache (self (run cs w)) = openapi_schema (self (run cs w))
    ∧ returns_single_slot cs (without_cache w) = returns cs w
    ∧ run_single_slot cs (without_cache w) = without_cache (run cs w)).
  { induction cs as [|c cs IH]; intros w Hw; [done|].
    destruct (single_slot_simulates c w Hw) as [Hr Hs].
    destruct (IH (step c w) (step_slots_agree c w Hw)) as (? & Hrs & Hws).
    simpl. by rewrite Hr, Hs, Hrs, Hws. }
  destruct (Hsim (construct kw) eq_refl) as (Hagree & Hrs & Hws).
  change (without_cache (construct kw)) with (construct kw) in Hrs, Hws.
  split_and!; try done. by rewrite Hws.
Qed.

(** A call leaves a cached non-empty document in place and does not reach
    the generator. *)
Lemma step_cached (d : pydict) (c : call) (w : World) :
  cached d (self w) → truthy d = true →
  cached d (self (step c w)) ∧ generated (step c w) = generated w.
Proof.
  intros [Hs Hc] Hd.
  assert (truthy (openapi_schema (self w)) = true) by (by rewrite Hs).
  assert (truthy (_openapi_schema_cache (self w)) = true) by (by rewrite Hc).
  destruct c; rewrite ?step_add_middleware; simpl; try done.
  - by rewrite get_openapi_hit.
  - by rewrite openapi_present.
Qed.

Lemma run_cached (d : pydict) (cs : list call) (w : World) :
  cached d (self w) → truthy d = true →
  cached d (self (run cs w)) ∧ generated (run cs w) = generated w.
Proof.
  intros Hw Hd. revert w Hw.
  induction cs as [|c cs IH]; intros w Hw; [done|].
  destruct (step_cached d c w Hw Hd) as [Hw' Hg].
  simpl. rewrite <- Hg. by apply IH.
Qed.

(** C1, as the code has it: once a non-empty document [d] has been computed
    and cached, after any further calls of the public methods
    ([add_route], [include_router], [add_middleware] and the others)
    [get_openapi] returns [d] whatever overrides it is given, [openapi]
    returns [d], neither changes the world, and the generator has not been
    called again. *)
Theorem cached_schema_is_sticky (d : pydict) (w : World) (cs : list call)
  (kw : Overrides) :
  cached d (self w) → truthy d = true →
  let w' := run cs w in
  get_openapi kw w' = (Some d, w')
  ∧ openapi w' = (Some d, w')
  ∧ cached d (self w')
  ∧ generated w' = generated w.
Proof.
  intros Hw Hd w'.
  destruct (run_cached d cs w Hw Hd) as [[Hs Hc] Hg]. fold w' in Hs, Hc, Hg.
  repeat split; try done.
  - rewrite get_openapi_hit by (by rewrite Hc). by rewrite Hc.
  - rewrite openapi_present by (by rewrite Hs). by rewrite Hs.
Qed.

(** C4: on a registry with nothing cached, [get_openapi(title=X)] with a
    non-empty [X] calls the generator with title [X]; with a generator that
    writes its title argument under the key [title], the document returned
    has title [X], and a following [get_openapi(title=Y)] returns that same
    document, whose title is [X] and not [Y], without changing the world. *)
Theorem title_override_then_cached (w : World) (kw kw' : Overrides)
  (X Y : string) :
  (∀ a, generate a !! "title" = Some (PStr (g_title a))) →
  truthy (_openapi_schema_cache (self w)) = false →
  ov_title kw = Some X → truthy X = true →
  ov_title kw' = Some Y → X ≠ Y →
  let first := get_openapi kw w in
  let second := get_openapi kw' first.2 in
  ∃ d, first.1 = Some d
       ∧ generated first.2 = generated w ++ [resolve kw (self w)]
       ∧ g_title (resolve kw (self w)) = X
       ∧ d !! "title" = Some (PStr X)
       ∧ second = (Some d, first.2)
       ∧ d !! "title" ≠ Some (PStr Y).
Proof.
  intros Hgen Hmiss HX HtX HY Hne. cbv zeta.
  rewrite (get_openapi_miss kw w) by done. cbn [fst snd].
  assert (Ht : g_title (resolve kw (self w)) = X).
  { simpl. rewrite HX. simpl. by rewrite HtX. }
  assert (Hd : generate (resolve kw (self w)) !! "title" = Some (PStr X)).
  { by rewrite Hgen, Ht. }
  eexists. repeat split; try done.
  - rewrite get_openapi_hit; [done|]. simpl. by eapply truthy_lookup.
  - rewrite Hd. congruence.
Qed.

(** With a generator whose documents are all false, a call leaves nothing
    cached, and calls the generator exactly when it asks for the schema. *)
Lemma step_nothing_cached (c : call) (w : World) :
  (∀ a, truthy (generate a) = false) →
  nothing_cached (self w) →
  nothing_cached (self (step c w))
  ∧ length (generated (step c w))
    = length (generated w) + (if is_schema_request c then 1 else 0).
Proof.
  intros Hfalsy [Hs Hc].
  destruct c; rewrite ?step_add_middleware; simpl;
    try (split; [done | lia]).
  - rewrite get_openapi_miss by done.
    repeat split; [exact (Hfalsy _) .. |]. simpl. by rewrite length_app.
  - rewrite openapi_generates by done.
    repeat split; [exact (Hfalsy _) .. |]. simpl. by rewrite length_app.
Qed.

(** C9: with a schema generator that returns false (empty) documents, from
    a state where neither slot holds a true value, nothing is ever treated
    as cached: after any calls the slots still fail the test, the generator
    has been called once per schema request made, and both [get_openapi]
    and [openapi] call it again, returning what it returns now. *)
Theorem falsy_schema_never_cached (w : World) (cs : list call)
  (kw : Overrides) :
  (∀ a, truthy (generate a) = false) →
  nothing_cached (self w) →
  let w' := run cs w in
  nothing_cached (self w')
  ∧ length (generated w')
    = length (generated w) + length (List.filter is_schema_request cs)
  ∧ get_openapi kw w'
    = (Some (generate (resolve kw (self w'))), generated_world kw w')
  ∧ openapi w'
    = (Some (generate (resolve no_overrides (self w'))),
       generated_world no_overrides w').
Proof.
  intros Hfalsy Hw.
  assert (Hrun : nothing_cached (self (run cs w))
    ∧ length (generated (run cs w))
      = length (generated w) + length (List.filter is_schema_request cs)).
  { revert w Hw. induction cs as [|c cs IH]; intros w Hw.
    - simpl. split; [done | lia].
    - destruct (step_nothing_cached c w Hfalsy Hw) as [Hw' Hlen].
      destruct (IH _ Hw') as [Hnc Hl]. simpl. split; [done|].
      rewrite Hl, Hlen. destruct (is_schema_request c); simpl; lia. }
  cbv zeta. destruct Hrun as [[Hs Hc] Hlen]. repeat split; try done.
  - by apply get_openapi_miss.
  - by apply openapi_generates.
Qed.

(** ** Overrides *)

Lemma or_else_drop_falsy {A} `{Truthy A} (x : option A) (y : A) :
  or_else (drop_falsy x) y = or_else x y.
Proof.
  unfold drop_falsy. destruct x as [v|]; [|done].
  rewrite truthy_Some. simpl.
  by destruct (truthy v) eqn:Hv; simpl; rewrite ?Hv.
Qed.

Lemma py_or_drop_falsy {A} `{Truthy A} (x y : option A) :
  py_or (drop_falsy x) y = py_or x y.
Proof.
  unfold py_or, drop_falsy. by destruct (truthy x) eqn:Hx; rewrite ?Hx.
Qed.

Lemma or_else_falsy {A} `{Truthy A} (x : option A) (y : A) :
  truthy x = false → or_else x y = y.
Proof. destruct x as [v|]; [|done]. rewrite truthy_Some. simpl. by intros ->. Qed.

Lemma py_or_falsy {A} `{Truthy A} (x y : option A) :
  truthy x = false → py_or x y = y.
Proof. unfold py_or. by intros ->. Qed.

(** Field by field: a false override leaves the stored value. *)
Lemma resolve_falsy_fields (kw : Overrides) (a : FastAPI) :
  (truthy (ov_title kw) = false → g_title (resolve kw a) = title a)
  ∧ (truthy (ov_version kw) = false → g_version (resolve kw a) = version a)
  ∧ (truthy (ov_description kw) = false →
     g_description (resolve kw a) = description a)
  ∧ (truthy (ov_routes kw) = false → g_routes (resolve kw a) = routes a)
  ∧ (truthy (ov_tags kw) = false → g_tags (resolve kw a) = openapi_tags a)
  ∧ (truthy (ov_servers kw) = false → g_servers (resolve kw a) = servers a).
Proof.
  split_and!; intros Hf; simpl;
    first [by apply or_else_falsy | by apply py_or_falsy].
Qed.

Lemma resolve_supplied_truthy_only (kw : Overrides) (a : FastAPI) :
  resolve (supplied_truthy_only kw) a = resolve kw a.
Proof.
  unfold resolve, supplied_truthy_only. simpl.
  by rewrite !or_else_drop_falsy, !py_or_drop_falsy.
Qed.

(** What [x or y] picks, by the truth value of [x]. *)
Lemma or_else_cases {A} `{Truthy A} (x : option A) (y : A) :
  if truthy x then x = Some (or_else x y) else or_else x y = y.
Proof.
  destruct x as [v|]; [|done]. rewrite truthy_Some. simpl.
  by destruct (truthy v).
Qed.

Lemma py_or_cases {A} `{Truthy A} (x y : option A) :
  if truthy x then py_or x y = x else py_or x y = y.
Proof. unfold py_or. by destruct (truthy x). Qed.

(** C10: an override that is supplied with a false value (an empty string,
    an empty list) does what an omitted one does.  [get_openapi] behaves as
    if each such override were [None]; when it calls the generator (the
    cache slot holds nothing true), the one call it makes receives, for
    each of the six arguments, the override if that is true and the
    registry's stored value otherwise, and its document is stored and
    returned; with all six supplied false the generator receives the
    stored values.  With a true cache slot the generator is not called. *)
Theorem falsy_override_counts_as_absent (kw : Overrides) (w : World) :
  get_openapi kw w = get_openapi (supplied_truthy_only kw) w
  ∧ resolve kw (self w) = resolve (supplied_truthy_only kw) (self w)
  ∧ resolve falsy_overrides (self w) = stored_values (self w)
  ∧ resolve no_overrides (self w) = stored_values (self w)
  ∧ get_openapi falsy_overrides w = get_openapi no_overrides w
  ∧ if truthy (_openapi_schema_cache (self w))
    then get_openapi kw w = (_openapi_schema_cache (self w), w)
    else
      (∃ a : GenArgs,
         get_openapi kw w
         = (Some (generate a),
            {| self := set_openapi_schema_cache (Some (generate a))
                         (set_openapi_schema (Some (generate a)) (self w));
               generated := generated w ++ [a] |})
         ∧ (if truthy (ov_title kw) then ov_title kw = Some (g_title a)
            else g_title a = title (self w))
         ∧ (if truthy (ov_version kw) then ov_version kw = Some (g_version a)
            else g_version a = version (self w))
         ∧ (if truthy (ov_description kw)
            then ov_description kw = Some (g_description a)
            else g_description a = description (self w))
         ∧ (if truthy (ov_routes kw) then ov_routes kw = Some (g_routes a)
            else g_routes a = routes (self w))
         ∧ (if truthy (ov_tags kw) then g_tags a = ov_tags kw
            else g_tags a = openapi_tags (self w))
         ∧ (if truthy (ov_servers kw) then g_servers a = ov_servers kw
            else g_servers a = servers (self w)))
      ∧ (get_openapi falsy_overrides w).1
        = Some (generate (stored_values (self w)))
      ∧ generated (get_openapi falsy_overrides w).2
        = generated w ++ [stored_values (self w)].
Proof.
  assert (Hall : ∀ k k', resolve k (self w) = resolve k' (self w) →
                         get_openapi k w = get_openapi k' w).
  { intros k k' Hk.
    destruct (truthy (_openapi_schema_cache (self w))) eqn:Hc.
    - by rewrite !get_openapi_hit.
    - rewrite !get_openapi_miss by done.
      unfold generated_world. by rewrite Hk. }
  split_and!.
  - apply Hall. by rewrite resolve_supplied_truthy_only.
  - by rewrite resolve_supplied_truthy_only.
  - reflexivity.
  - reflexivity.
  - by apply Hall.
  - destruct (truthy (_openapi_schema_cache (self w))) eqn:Hc.
    { by apply get_openapi_hit. }
    rewrite !get_openapi_miss by done. split_and!; [|done..].
    exists (resolve kw (self w)). split_and!; [done | ..].
    + apply or_else_cases.
    + apply or_else_cases.
    + apply or_else_cases.
    + apply or_else_cases.
    + apply py_or_cases.
    + apply py_or_cases.
Qed.

(** ** Whole call sequences *)

Lemma grown_app {A} (s : sequence A) (l l' : list A) :
  grown (grown s l) l' = grown s (l ++ l').
Proof. destruct s; simpl; by rewrite <- ?app_assoc. Qed.

Lemma grown_nil {A} (s : sequence A) : grown s [] = s.
Proof. destruct s; simpl; by rewrite ?app_nil_r. Qed.

(** What one call does to the attributes: it appends what it registers and
    assigns nothing else but the schema slots. *)
Lemma step_attributes (c : call) (w : World) :
  routes (self (step c w)) = routes (self w) ++ routes_added c
  ∧ middleware (self (step c w))
    = grown (middleware (self w)) (middleware_added c)
  ∧ configuration (self (step c w)) = configuration (self w).
Proof.
  destruct c; rewrite ?step_add_middleware; simpl;
    rewrite ?app_nil_r, ?grown_nil; try done.
  - destruct (truthy (_openapi_schema_cache (self w))) eqn:Hc.
    + by rewrite get_openapi_hit.
    + by rewrite get_openapi_miss.
  - destruct (truthy (openapi_schema (self w))) eqn:Hs.
    { by rewrite openapi_present. }
    destruct (truthy (_openapi_schema_cache (self w))) eqn:Hc.
    + by rewrite openapi_from_cache.
    + by rewrite openapi_generates.
Qed.

Lemma run_attributes (cs : list call) (w : World) :
  routes (self (run cs w)) = routes (self w) ++ (cs ≫= routes_added)
  ∧ middleware (self (run cs w))
    = grown (middleware (self w)) (cs ≫= middleware_added)
  ∧ configuration (self (run cs w)) = configuration (self w).
Proof.
  revert w. induction cs as [|c cs IH]; intros w.
  - simpl. by rewrite app_nil_r, grown_nil.
  - destruct (step_attributes c w) as (Hr & Hm & Hc).
    destruct (IH (step c w)) as (Hrs & Hms & Hcs).
    change (run (c :: cs) w) with (run cs (step c w)).
    change ((c :: cs) ≫= middleware_added)
      with (middleware_added c ++ (cs ≫= middleware_added)).
    rewrite Hrs, Hms, Hcs, Hr, Hm, Hc, grown_app.
    by rewrite <- !app_assoc.
Qed.

Lemma run_slots_agree (cs : list call) (w : World) :
  _openapi_schema_cache (self w) = openapi_schema (self w) →
  _openapi_schema_cache (self (run cs w))
  = openapi_schema (self (run cs w)).
Proof.
  revert w. induction cs as [|c cs IH]; intros w Hw; [done|].
  simpl. by apply IH, step_slots_agree.
Qed.

(** No call raises while [middleware] is a list; with a tuple there, the
    [add_middleware] calls raise and no other. *)
Lemma raised_list (cs : list call) (w : World) (l : list Middleware) :
  middleware (self w) = a_list l → raised cs w = (λ _, false) <$> cs.
Proof.
  revert w l. induction cs as [|c cs IH]; intros w l Hm; [done|].
  destruct (step_attributes c w) as (_ & Hm' & _). rewrite Hm in Hm'.
  simpl. rewrite (IH _ _ Hm'). f_equal.
  destruct c; try done. simpl. by rewrite add_middleware_spec, Hm.
Qed.

Lemma raised_tuple (cs : list call) (w : World) (l : list Middleware) :
  middleware (self w) = a_tuple l → raised cs w = is_add_middleware <$> cs.
Proof.
  revert w. induction cs as [|c cs IH]; intros w Hm; [done|].
  destruct (step_attributes c w) as (_ & Hm' & _). rewrite Hm in Hm'.
  simpl. rewrite (IH _ Hm'). f_equal.
  destruct c; try done. simpl. by rewrite add_middleware_spec, Hm.
Qed.

(** X1: what [add_middleware] does depends on the kind of [middleware].
    While it is a list, no call raises and, whatever else is called in
    between, [middleware] after a call sequence is the list before it
    followed by one descriptor per [add_middleware] call, built from that
    call's class and options, in call order.  When it is a tuple, every
    [add_middleware] call raises [AttributeError] and changes nothing, and
    [middleware] stays as it was.  The constructor leaves a tuple there
    exactly when it was passed a non-empty one. *)
Theorem middleware_in_call_order (cs : list call) (w : World)
  (middleware_class : PyType) (options : pydict) (kw : InitKwargs) :
  let w' := run cs w in
  match middleware (self w) with
  | a_list l =>
      middleware (self w') = a_list (l ++ (cs ≫= middleware_added))
      ∧ raised cs w = (λ _, false) <$> cs
      ∧ (add_middleware middleware_class options w).1 = Returned tt
  | a_tuple l =>
      middleware (self w') = a_tuple l
      ∧ raised cs w = is_add_middleware <$> cs
      ∧ add_middleware middleware_class options w
        = (Raised AttributeError, w)
  end
  ∧ ((∃ l, middleware (__init__ kw) = a_tuple l)
     ↔ (∃ l, kw_middleware kw = Some (a_tuple l) ∧ l ≠ [])).
Proof.
  cbv zeta. split.
  - destruct (run_attributes cs w) as (_ & Hm & _).
    rewrite add_middleware_spec.
    destruct (middleware (self w)) as [l|l] eqn:Hl; simpl in Hm.
    + split_and!; [done | by eapply raised_list | done].
    + split_and!; [done | by eapply raised_tuple | done].
  - simpl. destruct (kw_middleware kw) as [[l|l]|]; simpl.
    + split; [|by intros (? & ? & _)].
      destruct (truthy (a_list l)); by intros [? ?].
    + destruct l as [|x l]; simpl.
      * split; [by intros [? ?] | by intros (? & [= <-] & ?)].
      * split; [|by eauto]. intros _. by exists (x :: l).
    + split; [by intros [? ?] | by intros (? & ? & _)].
Qed.

(** X2: whatever else is called in between, [routes] after a call sequence
    is the list before it followed by what the [add_route] and
    [include_router] calls registered, in call order; schema requests,
    [add_middleware] and the stubs leave it alone, and no route is ever
    removed, reordered or deduplicated. *)
Theorem routes_in_call_order (cs : list call) (w : World) :
  let w' := run cs w in
  routes (self w') = routes (self w) ++ (cs ≫= routes_added)
  ∧ routes (self w) `prefix_of` routes (self w')
  ∧ length (routes (self w'))
    = length (routes (self w)) + sum_list (length ∘ routes_added <$> cs).
Proof.
  cbv zeta. destruct (run_attributes cs w) as (Hr & _ & _).
  rewrite Hr. split_and!; [done | by apply prefix_app_r |].
  rewrite length_app. f_equal.
  clear. induction cs as [|c cs IH]; [done|].
  change ((c :: cs) ≫= routes_added)
    with (routes_added c ++ (cs ≫= routes_added)).
  rewrite length_app, IH. done.
Qed.

(** X3: no method assigns any attribute but [routes], [middleware] and the
    two schema slots: after any call sequence the other seventeen are what
    they were, among them the generator's inputs [title], [version],
    [description], [openapi_tags] and [servers], and the collections
    [exception_handlers], [on_startup], [on_shutdown] and [dependencies],
    to which nothing is ever added. *)
Theorem configuration_never_changes (cs : list call) (w : World) :
  let a := self w in
  let a' := self (run cs w) in
  configuration a' = configuration a
  ∧ title a' = title a ∧ version a' = version a
  ∧ description a' = description a
  ∧ openapi_tags a' = openapi_tags a ∧ servers a' = servers a
  ∧ exception_handlers a' = exception_handlers a
  ∧ on_startup a' = on_startup a ∧ on_shutdown a' = on_shutdown a
  ∧ dependencies a' = dependencies a
  ∧ debug a' = debug a ∧ openapi_url a' = openapi_url a
  ∧ docs_url a' = docs_url a ∧ redoc_url a' = redoc_url a
  ∧ swagger_ui_oauth2_redirect_url a' = swagger_ui_oauth2_redirect_url a
  ∧ swagger_ui_init_oauth a' = swagger_ui_init_oauth a
  ∧ default_response_class a' = default_response_class a
  ∧ openapi_prefix a' = openapi_prefix a.
Proof.
  cbv zeta. destruct (run_attributes cs w) as (_ & _ & Hc).
  split; [done|].
  split_and!.
  - exact (f_equal title Hc).
  - exact (f_equal version Hc).
  - exact (f_equal description Hc).
  - exact (f_equal openapi_tags Hc).
  - exact (f_equal servers Hc).
  - exact (f_equal exception_handlers Hc).
  - exact (f_equal on_startup Hc).
  - exact (f_equal on_shutdown Hc).
  - exact (f_equal dependencies Hc).
  - exact (f_equal debug Hc).
  - exact (f_equal openapi_url Hc).
  - exact (f_equal docs_url Hc).
  - exact (f_equal redoc_url Hc).
  - exact (f_equal swagger_ui_oauth2_redirect_url Hc).
  - exact (f_equal swagger_ui_init_oauth Hc).
  - exact (f_equal default_response_class Hc).
  - exact (f_equal openapi_prefix Hc).
Qed.

(** A setter that writes back the value read is the identity. *)
Lemma set_routes_same (a : FastAPI) : set_routes (routes a) a = a.
Proof. by destruct a. Qed.

Lemma set_openapi_schema_same (a : FastAPI) :
  set_openapi_schema (openapi_schema a) a = a.
Proof. by destruct a. Qed.

(** X4: [include_router(router, ...)] does what [add_route] called once per
    route of the router does, in the router's order and under any paths;
    two inclusions in a row do what [add_route] does over the two route
    lists joined; and the call leaves the world exactly as it was if and
    only if the router has no routes. *)
Theorem include_router_as_add_routes (router router' : APIRouter)
  (kw kw' : IncludeKwargs) (path_of : BaseRoute → string) (w : World) :
  include_router router kw w
  = add_routes (each_route path_of (router_routes router)) w
  ∧ include_router router' kw' (include_router router kw w).2
    = add_routes
        (each_route path_of (router_routes router ++ router_routes router'))
        w
  ∧ (include_router router kw w = (tt, w) ↔ router_routes router = []).
Proof.
  assert (Hsnd : ∀ l : list BaseRoute, (each_route path_of l).*2 = l).
  { intros l. unfold each_route. rewrite <- list_fmap_compose.
    rewrite <- (list_fmap_id l) at 2. by apply list_fmap_ext. }
  split_and!.
  - by rewrite add_routes_spec, Hsnd.
  - rewrite add_routes_spec, Hsnd. unfold_M. simpl. by rewrite <- app_assoc.
  - unfold_M. simpl. split.
    + intros Heq. apply (f_equal (λ r, routes (self r.2))) in Heq.
      simpl in Heq. rewrite <- (app_nil_r (routes (self w))) in Heq at 2.
      by apply app_inv_head in Heq.
    + intros ->. rewrite app_nil_r, set_routes_same. by destruct w.
Qed.

(** X5: in every state the methods can reach from a construction, the two
    slots agree, and [openapi()] is [get_openapi()] with no overrides: the
    same return value and the same world after. *)
Theorem openapi_is_get_openapi_without_overrides (kw : InitKwargs)
  (cs : list call) :
  let w := run cs (construct kw) in
  openapi w = get_openapi no_overrides w.
Proof.
  cbv zeta. set (w := run cs (construct kw)).
  assert (Heq : _openapi_schema_cache (self w) = openapi_schema (self w)).
  { by apply run_slots_agree. }
  destruct (truthy (openapi_schema (self w))) eqn:Hs.
  - rewrite openapi_present by done.
    rewrite get_openapi_hit by (by rewrite Heq). by rewrite Heq.
  - rewrite openapi_generates by (by rewrite ?Heq).
    by rewrite get_openapi_miss by (by rewrite Heq).
Qed.

(** A call that is no schema request only registers. *)
Lemma step_registration (c : call) (w : World) :
  is_schema_request c = false →
  step c w
  = {| self := set_middleware
                 (grown (middleware (self w)) (middleware_added c))
                 (set_routes (routes (self w) ++ routes_added c) (self w));
       generated := generated w |}.
Proof.
  intros Hc.
  destruct c; try discriminate Hc; rewrite ?step_add_middleware; simpl;
    rewrite ?app_nil_r, ?grown_nil; try done; by destruct w as [[] ?].
Qed.

Lemma run_registrations (cs : list call) (w : World) :
  run (List.filter no_schema_request cs) w
  = {| self := set_middleware
                 (grown (middleware (self w)) (cs ≫= middleware_added))
                 (set_routes (routes (self w) ++ (cs ≫= routes_added))
                    (self w));
       generated := generated w |}.
Proof.
  revert w. induction cs as [|c cs IH]; intros w.
  - simpl. rewrite app_nil_r, grown_nil. by destruct w as [[] ?].
  - change ((c :: cs) ≫= middleware_added)
      with (middleware_added c ++ (cs ≫= middleware_added)).
    change ((c :: cs) ≫= routes_added)
      with (routes_added c ++ (cs ≫= routes_added)).
    simpl. unfold no_schema_request at 1.
    destruct (is_schema_request c) eqn:Hc; simpl.
    + rewrite IH. by destruct c.
    + rewrite IH, step_registration by done. simpl.
      by rewrite grown_app, <- !app_assoc.
Qed.

(** X6: while [middleware] is a list, the world after a call sequence
    without schema requests is determined by the routes and the middleware
    it registers, each in call order: no such call raises, none reaches the
    generator or the schema slots, and registering a route ([add_route],
    [include_router]) commutes with registering middleware. *)
Theorem registrations_commute (cs : list call) (w : World)
  (l : list Middleware) (middleware_class : PyType) (options : pydict)
  (path : string) (route : BaseRoute) (router : APIRouter)
  (kw : IncludeKwargs) :
  middleware (self w) = a_list l →
  let registrations := List.filter no_schema_request cs in
  let first_middleware := [Add_middleware middleware_class options;
                           Add_route path route] in
  let first_route := [Add_route path route;
                      Add_middleware middleware_class options] in
  let first_middleware' := [Add_middleware middleware_class options;
                            Include_router router kw] in
  let first_router := [Include_router router kw;
                       Add_middleware middleware_class options] in
  run registrations w
  = {| self := set_middleware (a_list (l ++ (cs ≫= middleware_added)))
                 (set_routes (routes (self w) ++ (cs ≫= routes_added))
                    (self w));
       generated := generated w |}
  ∧ raised registrations w = (λ _, false) <$> registrations
  ∧ run first_middleware w = run first_route w
  ∧ raised first_middleware w = [false; false]
  ∧ raised first_route w = [false; false]
  ∧ run first_middleware' w = run first_router w
  ∧ raised first_middleware' w = [false; false]
  ∧ raised first_router w = [false; false].
Proof.
  intros Hm. cbv zeta. split_and!.
  - by rewrite run_registrations, Hm.
  - by eapply raised_list.
  - cbn [run]. by rewrite !step_add_middleware.
  - by rewrite (raised_list _ _ _ Hm).
  - by rewrite (raised_list _ _ _ Hm).
  - cbn [run]. by rewrite !step_add_middleware.
  - by rewrite (raised_list _ _ _ Hm).
  - by rewrite (raised_list _ _ _ Hm).
Qed.

(** X7: registrations made before the first schema request are all in the
    first schema document.  After a construction and any calls that are no
    schema requests the generator has not been called; [openapi()] then
    calls it once, with the constructor's [title], [version],
    [description], [openapi_tags] and [servers] and with the constructor's
    routes followed by every route registered since, and stores and returns
    its document. *)
Theorem first_schema_has_all_registrations (kw : InitKwargs)
  (cs : list call) :
  let w := run (List.filter no_schema_request cs) (construct kw) in
  let a := {| g_title := kw_title kw;
              g_version := kw_version kw;
              g_description := kw_description kw;
              g_routes := default [] (kw_routes kw) ++ (cs ≫= routes_added);
              g_tags := kw_openapi_tags kw;
              g_servers := kw_servers kw |} in
  generated w = []
  ∧ openapi w = (Some (generate a), generated_world no_overrides w)
  ∧ generated (openapi w).2 = [a]
  ∧ cached (generate a) (self (openapi w).2).
Proof.
  cbv zeta. rewrite run_registrations.
  rewrite openapi_generates by done.
  cbn -[generate]. rewrite !or_else_nil.
  by split_and!.
Qed.

(** While a non-empty document is cached, a schema request returns it and
    any other call returns [None]. *)
Lemma returns_cached (d : pydict) (cs : list call) (w : World) :
  cached d (self w) → truthy d = true →
  Forall2 (λ c r, r = if is_schema_request c then Some d else None)
    cs (returns cs w).
Proof.
  intros Hw Hd. revert w Hw.
  induction cs as [|c cs IH]; intros w Hw; [by constructor|].
  simpl. constructor.
  - destruct Hw as [Hs Hc]. destruct c; simpl; try done.
    + rewrite get_openapi_hit by (by rewrite Hc). by rewrite Hc.
    + rewrite openapi_present by (by rewrite Hs). by rewrite Hs.
  - apply IH. by apply step_cached.
Qed.

(** With nothing cached a schema request generates, whichever of the two
    methods it is. *)
Lemma request_generates (c : call) (w : World) :
  is_schema_request c = true → nothing_cached (self w) →
  ∃ kw, result c w = Some (generate (resolve kw (self w)))
        ∧ step c w = generated_world kw w.
Proof.
  intros Hc [Hs Hcache]. destruct c; try discriminate Hc; simpl.
  - exists kw. by rewrite get_openapi_miss.
  - exists no_overrides. by rewrite openapi_generates.
Qed.

(** X8: with a schema generator whose documents are never empty, a call
    sequence started with nothing cached calls the generator at most once:
    once if the sequence holds a schema request, never otherwise; every
    schema request of the sequence returns the document of that one call,
    and every other call returns [None]. *)
Theorem generator_called_at_most_once (cs : list call) (w : World) :
  (∀ a, truthy (generate a) = true) →
  nothing_cached (self w) →
  let w' := run cs w in
  length (generated w')
  = length (generated w) + (if existsb is_schema_request cs then 1 else 0)
  ∧ Forall2 (λ c r, r = if is_schema_request c
                        then generate <$> last (generated w')
                        else None)
      cs (returns cs w).
Proof.
  intros Htruthy. cbv zeta. revert w.
  induction cs as [|c cs IH]; intros w Hw.
  { simpl. split; [lia | constructor]. }
  change (run (c :: cs) w) with (run cs (step c w)).
  destruct (is_schema_request c) eqn:Hc.
  - destruct (request_generates c w Hc Hw) as (kw & Hres & Hstep).
    set (a := resolve kw (self w)) in *.
    assert (Hcached : cached (generate a) (self (step c w))).
    { rewrite Hstep. by split. }
    destruct (run_cached _ cs _ Hcached (Htruthy a)) as [_ Hlog].
    assert (Hgen : generated (run cs (step c w)) = generated w ++ [a]).
    { rewrite Hlog. by rewrite Hstep. }
    rewrite Hgen, last_snoc.
    change (existsb is_schema_request (c :: cs))
      with (is_schema_request c || existsb is_schema_request cs).
    rewrite Hc. split.
    + rewrite length_app. simpl. lia.
    + change (returns (c :: cs) w)
        with (result c w :: returns cs (step c w)).
      constructor; [by rewrite Hc, Hres|].
      by apply returns_cached.
  - assert (Hw' : nothing_cached (self (step c w))
                  ∧ generated (step c w) = generated w).
    { rewrite step_registration by done. by destruct Hw. }
    destruct Hw' as [Hw' Hlog].
    destruct (IH (step c w) Hw') as [Hlen Hret].
    change (existsb is_schema_request (c :: cs))
      with (is_schema_request c || existsb is_schema_request cs).
    rewrite Hc. split.
    + by rewrite Hlen, Hlog.
    + change (returns (c :: cs) w)
        with (result c w :: returns cs (step c w)).
      constructor; [|done]. rewrite Hc. by destruct c.
Qed.

(** X9: with a non-empty document cached, an assignment from outside that
    clears one slot does not make [openapi()] generate again.  After
    [openapi_schema = None], [openapi()] takes the document from
    [_openapi_schema_cache] and puts it back, which restores the world as
    it was; after [_openapi_schema_cache = None], [openapi()] still returns
    the document, while [get_openapi] calls the generator and overwrites
    both slots.  Only with both slots cleared does [openapi()] call the
    generator. *)
Theorem clearing_one_slot_is_undone (d : pydict) (w : World)
  (kw : Overrides) :
  cached d (self w) → truthy d = true →
  let no_schema := assigned (set_openapi_schema None) w in
  let no_cache := assigned (set_openapi_schema_cache None) w in
  let neither := assigned (set_openapi_schema_cache None) no_schema in
  openapi no_schema = (Some d, w)
  ∧ get_openapi kw no_schema = (Some d, no_schema)
  ∧ openapi no_cache = (Some d, no_cache)
  ∧ get_openapi kw no_cache
    = (Some (generate (resolve kw (self w))), generated_world kw w)
  ∧ openapi neither
    = (Some (generate (resolve no_overrides (self w))),
       generated_world no_overrides w).
Proof.
  intros [Hs Hc] Hd. cbv zeta. split_and!.
  - rewrite openapi_from_cache; [|done|by simpl; rewrite Hc].
    simpl. rewrite Hc. f_equal.
    destruct w as [a g]. simpl in *. f_equal.
    rewrite <- Hs. by destruct a.
  - rewrite get_openapi_hit by (by simpl; rewrite Hc). simpl. by rewrite Hc.
  - rewrite openapi_present by (by simpl; rewrite Hs). simpl. by rewrite Hs.
  - by rewrite get_openapi_miss.
  - by rewrite openapi_generates.
Qed.

End Properties.

(** ** The theorems on concrete inputs *)

Section Concrete.

(** [FastAPI()], then [get_openapi()], with the generator that fills the
    top-level keys: the document is cached, and stays after three
    mutations, whatever the override. *)
Lemma cached_schema_is_sticky_witness :
  let F := framework_with document_generator in
  let w := (get_openapi no_overrides (construct no_arguments)).2 in
  let d := document_generator "FastAPI" "0.1.0" "" [] None None in
  let cs := [Add_route "/items" "items";
             Include_router ["users"; "orders"] include_defaults;
             Add_middleware "GZipMiddleware" ∅] in
  routes (self (run cs w)) = ["items"; "users"; "orders"]
  ∧ get_openapi (title_only "Other") (run cs w) = (Some d, run cs w)
  ∧ openapi (run cs w) = (Some d, run cs w)
  ∧ cached d (self (run cs w))
  ∧ generated (run cs w) = generated w.
Proof.
  cbv zeta. split; [reflexivity|].
  apply (cached_schema_is_sticky (F := framework_with document_generator)).
  - split; reflexivity.
  - vm_compute. reflexivity.
Defined.

(** C1 as stated fails when the document computed and cached is empty.
    With the generator that describes only the routes, [FastAPI()] then
    [get_openapi()] stores the empty document in both slots; after
    [add_route] the next [get_openapi()] and [openapi()] return a new
    document, and without any mutation an override of [routes] is not
    ignored either. *)
Lemma empty_cached_schema_not_sticky :
  let F := framework_with paths_generator in
  let w := (get_openapi no_overrides (construct no_arguments)).2 in
  let w' := run [Add_route "/items" "items"] w in
  let with_routes :=
    {| ov_title := None; ov_version := None; ov_description := None;
       ov_routes := Some ["users"]; ov_tags := None; ov_servers := None |} in
  cached ∅ (self w)
  ∧ (get_openapi no_overrides w').1
    = Some {[ "paths" := PList [PStr "items"] ]}
  ∧ (get_openapi no_overrides w').1 ≠ Some ∅
  ∧ (openapi w').1 ≠ Some ∅
  ∧ (get_openapi with_routes w).1 ≠ Some ∅
  ∧ length (generated (get_openapi no_overrides w').2) = 2.
Proof.
  cbv zeta. split_and!; try reflexivity; try (split; reflexivity).
  all: vm_compute; intros Heq; discriminate Heq.
Qed.

(** [get_openapi(title="X")] then [get_openapi(title="Y")] on [FastAPI()],
    with the generator that fills the top-level keys. *)
Lemma title_override_then_cached_witness :
  let F := framework_with document_generator in
  let first := get_openapi (title_only "X") (construct no_arguments) in
  let second := get_openapi (title_only "Y") first.2 in
  ∃ d, first.1 = Some d
       ∧ generated first.2
         = [resolve (title_only "X") (__init__ no_arguments)]
       ∧ g_title (resolve (title_only "X") (__init__ no_arguments)) = "X"
       ∧ d !! "title" = Some (PStr "X")
       ∧ second = (Some d, first.2)
       ∧ d !! "title" ≠ Some (PStr "Y").
Proof.
  cbv zeta.
  apply (title_override_then_cached (F := framework_with document_generator)
           (construct no_arguments) (title_only "X") (title_only "Y")
           "X" "Y").
  - intros a. reflexivity.
  - reflexivity.
  - reflexivity.
  - reflexivity.
  - reflexivity.
  - intros Heq. discriminate Heq.
Defined.

(** C6 as stated fails for three optional collections: [FastAPI()] leaves
    [openapi_tags], [servers] and [swagger_ui_init_oauth] at [None], not
    at an empty list or mapping. *)
Lemma omitted_tags_servers_stay_absent :
  let F := framework_with document_generator in
  let app := __init__ no_arguments in
  openapi_tags app = None ∧ servers app = None
  ∧ swagger_ui_init_oauth app = None
  ∧ openapi_tags app ≠ Some [] ∧ servers app ≠ Some []
  ∧ swagger_ui_init_oauth app ≠ Some ∅.
Proof. cbv zeta. split_and!; try reflexivity; intros Heq; discriminate Heq. Qed.

(** [FastAPI()] with the generator of empty documents: four schema
    requests among six calls reach the generator four times, and the next
    ones reach it again. *)
Lemma falsy_schema_never_cached_witness :
  let F := framework_with empty_generator in
  let w := construct no_arguments in
  let cs := [Get_openapi no_overrides; Openapi; Add_route "/items" "items";
             Openapi; Setup; Get_openapi (title_only "X")] in
  let w' := run cs w in
  nothing_cached (self w')
  ∧ length (generated w') = length (generated w) + 4
  ∧ get_openapi (title_only "Y") w'
    = (Some ∅, generated_world (title_only "Y") w')
  ∧ openapi w' = (Some ∅, generated_world no_overrides w').
Proof.
  cbv zeta.
  apply (falsy_schema_never_cached (F := framework_with empty_generator)
           (construct no_arguments)).
  - intros a. reflexivity.
  - split; reflexivity.
Defined.

(** [FastAPI()] with the generator that fills the top-level keys: three
    schema requests among five calls, one generator call, made before the
    middleware was added and with the one route registered by then. *)
Lemma generator_called_at_most_once_witness :
  let F := framework_with document_generator in
  let w := construct no_arguments in
  let cs := [Add_route "/items" "items"; Openapi;
             Add_middleware "GZipMiddleware" ∅;
             Get_openapi (title_only "Other"); Openapi] in
  generated (run cs w) = [stored_values (set_routes ["items"] (self w))]
  ∧ length (generated (run cs w)) = length (generated w) + 1
  ∧ Forall2 (λ c r, r = if is_schema_request c
                        then generate <$> last (generated (run cs w))
                        else None)
      cs (returns cs w).
Proof.
  cbv zeta. split; [reflexivity|].
  apply (generator_called_at_most_once
           (F := framework_with document_generator)).
  - intros a. apply (truthy_lookup _ "title" (PStr (g_title a))).
    reflexivity.
  - split; reflexivity.
Defined.

(** [FastAPI()], [get_openapi()], then one slot or both cleared from
    outside. *)
Lemma clearing_one_slot_is_undone_witness :
  let F := framework_with document_generator in
  let w := (get_openapi no_overrides (construct no_arguments)).2 in
  let d := document_generator "FastAPI" "0.1.0" "" [] None None in
  let kw := title_only "Other" in
  let no_schema := assigned (set_openapi_schema None) w in
  let no_cache := assigned (set_openapi_schema_cache None) w in
  let neither := assigned (set_openapi_schema_cache None) no_schema in
  openapi no_schema = (Some d, w)
  ∧ get_openapi kw no_schema = (Some d, no_schema)
  ∧ openapi no_cache = (Some d, no_cache)
  ∧ get_openapi kw no_cache
    = (Some (generate (resolve kw (self w))), generated_world kw w)
  ∧ openapi neither
    = (Some (generate (resolve no_overrides (self w))),
       generated_world no_overrides w).
Proof.
  cbv zeta.
  apply (clearing_one_slot_is_undone
           (F := framework_with document_generator)).
  - split; reflexivity.
  - vm_compute. reflexivity.
Defined.

(** A concrete call with false overrides: [get_openapi(title="", version="2.0",
    routes=[], tags=[])] on [FastAPI()] passes the stored title, the
    supplied version and the stored routes and tags to the generator. *)
Example falsy_overrides_on_default_app :
  let F := framework_with document_generator in
  let kw := {| ov_title := Some ""; ov_version := Some "2.0";
               ov_description := None; ov_routes := Some [];
               ov_tags := Some []; ov_servers := None |} in
  generated (get_openapi kw (construct no_arguments)).2
  = [{| g_title := "FastAPI"; g_version := "2.0"; g_description := "";
        g_routes := []; g_tags := None; g_servers := None |}].
Proof. reflexivity. Qed.

(** [FastAPI()], whose [middleware] is the empty list: registrations in
    both orders, none raising. *)
Lemma registrations_commute_witness :
  let F := framework_with document_generator in
  let w := construct no_arguments in
  let cs := [Add_route "/items" "items"; Openapi;
             Add_middleware "GZipMiddleware" ∅;
             Include_router ["users"; "orders"] include_defaults; Setup] in
  let registrations := List.filter no_schema_request cs in
  let first_middleware := [Add_middleware "CORSMiddleware" ∅;
                           Add_route "/items" "items"] in
  let first_route := [Add_route "/items" "items";
                      Add_middleware "CORSMiddleware" ∅] in
  let first_middleware' := [Add_middleware "CORSMiddleware" ∅;
                            Include_router ["users"] include_defaults] in
  let first_router := [Include_router ["users"] include_defaults;
                       Add_middleware "CORSMiddleware" ∅] in
  run registrations w
  = {| self := set_middleware (a_list ([] ++ (cs ≫= middleware_added)))
                 (set_routes (routes (self w) ++ (cs ≫= routes_added))
                    (self w));
       generated := generated w |}
  ∧ raised registrations w = (λ _, false) <$> registrations
  ∧ run first_middleware w = run first_route w
  ∧ raised first_middleware w = [false; false]
  ∧ raised first_route w = [false; false]
  ∧ run first_middleware' w = run first_router w
  ∧ raised first_middleware' w = [false; false]
  ∧ raised first_router w = [false; false].
Proof.
  cbv zeta.
  apply (registrations_commute (F := framework_with document_generator)
           _ (construct no_arguments) [] "CORSMiddleware" ∅
           "/items" "items" ["users"] include_defaults).
  reflexivity.
Defined.

(** A non-empty tuple passed as [middleware]: [add_middleware] raises and
    the tuple stays, while routes are still registered. *)
Example add_middleware_on_tuple :
  let F := framework_with document_generator in
  let kw := {| kw_debug := false; kw_routes := None; kw_title := "FastAPI";
               kw_description := ""; kw_version := "0.1.0";
               kw_openapi_url := None; kw_openapi_tags := None;
               kw_servers := None; kw_docs_url := None;
               kw_redoc_url := None;
               kw_swagger_ui_oauth2_redirect_url := None;
               kw_swagger_ui_init_oauth := None;
               kw_middleware := Some (a_tuple [("CORSMiddleware", ∅)]);
               kw_exception_handlers := None; kw_on_startup := None;
               kw_on_shutdown := None;
               kw_default_response_class := JSONResponse;
               kw_dependencies := None; kw_openapi_prefix := "" |} in
  let w := construct kw in
  add_middleware "GZipMiddleware" ∅ w = (Raised AttributeError, w)
  ∧ middleware (self (run [Add_middleware "GZipMiddleware" ∅;
                           Add_route "/items" "items"] w))
    = a_tuple [("CORSMiddleware", ∅)]
  ∧ raised [Add_middleware "GZipMiddleware" ∅; Add_route "/items" "items"] w
    = [true; false].
Proof. cbv zeta. split_and!; reflexivity. Qed.

End Concrete.
